(** * Casper front end: the AST builder table and BreakStatement.analyze

    A shallow embedding of [src/syntax/parser.js] and
    [src/ast/break-statement.js].  JavaScript exceptions are results of
    type [Result]; the analyzer, which receives a mutable context object,
    runs in a state-and-exception monad over a heap of objects; the builder
    table is one recursive function over Ohm's concrete syntax tree. *)

From Stdlib Require Import String Ascii List Arith Lia.
From Stdlib Require Import Floats.SpecFloat.
From stdpp Require Import gmap strings list.

Local Open Scope string_scope.
Set Warnings "-register-all".

(** ** Exceptions and results *)

(** What a [throw] carries.  [Error message] is [new Error(message)];
    [TypeError] is the engine's own error for a property read on [null] or
    [undefined] and for spreading a value that is not iterable;
    [MissingSemanticAction] is the error Ohm raises when an operation meets
    a rule that has no action and does not have exactly one child. *)
Inductive Exn : Type :=
| Error (message : string)
| TypeError
| MissingSemanticAction.

Inductive Result (A : Type) : Type :=
| Ok (value : A)
| Throw (exn : Exn).

Arguments Ok {A} value.
Arguments Throw {A} exn.

Definition bind {A B : Type} (r : Result A) (k : A -> Result B) : Result B :=
  match r with
  | Ok a => k a
  | Throw e => Throw e
  end.

Notation "'let!' x ':=' r 'in' k" := (bind r (fun x => k))
  (at level 10, x name, r at level 100, k at level 200).

(** A JavaScript number is an IEEE 754 double. *)
Definition Number : Type := spec_float.

(** ** src/ast/break-statement.js *)

Module BreakStatement.

Definition loc : Type := positive.

(** The values the analyzer can be handed or can read out of a context. *)
Inductive Value : Type :=
| Undefined
| Null
| Bool (b : bool)
| Num (n : Number)
| Str (s : string)
| Ref (l : loc).

(** An object is the finite map of its own properties; the heap maps the
    allocated references to their objects. *)
Definition Heap : Type := gmap loc (gmap string Value).

(** Computations that may read or write the heap and may throw. *)
Definition M (A : Type) : Type := Heap -> Result A * Heap.

Definition ret {A : Type} (a : A) : M A := fun h => (Ok a, h).

Definition throw {A : Type} (e : Exn) : M A := fun h => (Throw e, h).

Definition mbind {A B : Type} (m : M A) (k : A -> M B) : M B :=
  fun h =>
    match m h with
    | (Ok a, h') => k a h'
    | (Throw e, h') => (Throw e, h')
    end.

(** [ToBoolean] of the language: what [!v] and [if (v)] look at. *)
Definition ToBoolean (v : Value) : bool :=
  match v with
  | Undefined | Null => false
  | Bool b => b
  | Num (S754_zero _) | Num S754_nan => false
  | Num _ => true
  | Str s => negb (String.eqb s "")
  | Ref _ => true
  end.

(** [v.p] for a property [p] that no prototype defines: a [TypeError] on
    [undefined] and [null], the own property of an object (or [undefined]
    when it has none of that name), [undefined] on the other primitives.
    A reference the heap does not hold, which no program can come by, reads
    like an object without properties.  Reading never changes the heap. *)
Definition get_property (v : Value) (p : string) : M Value :=
  fun h =>
    match v with
    | Undefined | Null => (Throw TypeError, h)
    | Ref l => (Ok (default Undefined (default ∅ (h !! l) !! p)), h)
    | Bool _ | Num _ | Str _ => (Ok Undefined, h)
    end.

(** [analyze(context) { if (!context.inLoop) { throw new Error(...) } }];
    a method that falls off its end returns [undefined]. *)
Definition analyze (context : Value) : M Value :=
  mbind (get_property context "inLoop") (fun inLoop =>
    if negb (ToBoolean inLoop)
    then throw (Error "Break Statement out of Loop")
    else ret Undefined).

(** Modelled from the spec: the Context class, which is not among the
    sources.  A context is a heap object that "carries flags [inLoop: bool]
    and [enclosingFunctionReturnType]"; [is_Context h context flag] says
    that [context] refers to such an object of [h] whose [inLoop] is the
    boolean [flag]. *)
Definition is_Context (h : Heap) (context : Value) (flag : bool) : Prop :=
  exists l o, context = Ref l /\ h !! l = Some o /\ o !! "inLoop" = Some (Bool flag).

End BreakStatement.

(** ** src/syntax/parser.js *)

Module Parser.

(** *** Ohm's concrete syntax tree *)

(** The grammar rules the table gives an action to, under the names the
    table uses; [Other] stands for every rule of the grammar that has no
    entry (the rules that only choose between alternatives, [ListOf], ...). *)
Module Rule.
Inductive t : Type :=
| Program | Stmt_simple | Stmt_while | Stmt_if | Stmt_loop | Stmt_ternary
| Stmt_function | SimpleStmt_vardecl | SimpleStmt_assign | SimpleStmt_break
| SimpleStmt_return | Block_small | Block_large | Exp_or | Exp_and
| Exp1_binary | Exp2_binary | Exp3_binary | Exp4_unary | Exp5_parens
| Exp5_list | Exp5_set | Exp5_dict | KeyValue | Call | VarExp_subscripted
| VarExp_simple | Param | Arg | DeclId | NumType | StringType | BooleanType
| ListType | SetType | DictType | NonemptyListOf | EmptyListOf
| boollit | numlit | strlit | id
| Other (name : string).
End Rule.

(** The part of the input a node matched: positions [startIdx] (included)
    to [endIdx] (excluded). *)
Record Interval : Type := { startIdx : nat; endIdx : nat }.

(** A node is a terminal, the iteration node of a [*], [+] or [?], or the
    application of a rule to its sub-matches. *)
Inductive Node : Type :=
| Terminal (source : Interval)
| Iteration (source : Interval) (children : list Node)
| Nonterminal (ctorName : Rule.t) (source : Interval) (children : list Node).

Definition source (n : Node) : Interval :=
  match n with
  | Terminal i | Iteration i _ | Nonterminal _ i _ => i
  end.

(** [input.slice(startIdx, endIdx)] *)
Definition contents (input : string) (i : Interval) : string :=
  substring (startIdx i) (endIdx i - startIdx i) input.

(** [node.sourceString] *)
Definition sourceString (input : string) (n : Node) : string :=
  contents input (source n).

(** The sub-matches [cs] lie end to end from position [a] to position [b]:
    how the children of a lexical rule's node lie, where the match skips
    nothing between them. *)
Fixpoint tiles (a b : nat) (cs : list Node) : Prop :=
  match cs with
  | [] => a = b
  | c :: cs' =>
      startIdx (source c) = a /\ a <= endIdx (source c)
      /\ tiles (endIdx (source c)) b cs'
  end.

(** What a match over an input hands back: the tree, or the message of the
    failure ([match.succeeded()], [match.message]). *)
Inductive MatchResult : Type :=
| MatchSucceeded (cst : Node)
| MatchFailed (message : string).

(** *** The values the table builds *)

(** Modelled from the spec: the node classes of [src/ast/] and the type
    objects of [semantics/builtins], which are not among the sources.  Each
    class is a constructor that keeps the arguments of its [new], in the
    order of the spec's data model; a field holds any value, as in the
    source.  [Arr] is an array, [Str] a string. *)
Inductive Ast : Type :=
| Undefined
| Null
| Str (s : string)
| Arr (elements : list Ast)
| Program (body : Ast)
| WhileStatement (test body : Ast)
| IfStatement (tests consequents alternate : Ast)
| FromStatement (loopVar tests increments body : Ast)
| BreakStatement
| ReturnStatement (returnValue : Ast)
| FunctionDeclaration (returnType name params body : Ast)
| VariableDeclaration (type name init : Ast)
| AssignmentStatement (target value : Ast)
| BinaryExpression (op left right : Ast)
| UnaryExpression (op operand : Ast)
| TernaryExpression (test ifTrue ifFalse : Ast)
| ListExpression (elements : Ast)
| SetExpression (elements : Ast)
| DictionaryExpression (entries : Ast)
| KeyValueExpression (key value : Ast)
| Call (callee args : Ast)
| SubscriptedExpression (base index : Ast)
| IdentifierExpression (name : Ast)
| Parameter_ (type name defaultValue : Ast)
| Argument (value : Ast)
| IdDeclaration (name : Ast)
| NumType
| StringType
| BooleanType
| ListType (elem : Ast)
| SetType (elem : Ast)
| DictType (key value : Ast)
| BooleanLiteral (value : bool)
| NumericLiteral (value : Number)
| StringLiteral (value : string).

(** Neither [null] nor [undefined]. *)
Definition defined (v : Ast) : Prop := v <> Null /\ v <> Undefined.

(** The one-character strings of [s], in order: what iterating a string
    yields. *)
Fixpoint characters (s : string) : list Ast :=
  match s with
  | EmptyString => []
  | String c s' => Str (String c EmptyString) :: characters s'
  end.

(** [...a] inside an array literal: the elements of an array, the
    characters of a string, a [TypeError] for a value that is not iterable. *)
Definition spread (a : Ast) : Result (list Ast) :=
  match a with
  | Arr l => Ok l
  | Str s => Ok (characters s)
  | _ => Throw TypeError
  end.

(** [a.length === 0 ? null : a[0]].  On an array or a string the length and
    the first element are the obvious ones; reading [.length] of [null] or
    [undefined] is a [TypeError]; any other value has no [length], so the
    test fails and its absent property [0] reads [undefined]. *)
Definition arrayToNullable (a : Ast) : Result Ast :=
  match a with
  | Arr [] => Ok Null
  | Arr (x :: _) => Ok x
  | Str EmptyString => Ok Null
  | Str (String c _) => Ok (Str (String c EmptyString))
  | Null | Undefined => Throw TypeError
  | _ => Ok Undefined
  end.

(** [children.map(f)] where [f] may throw: left to right, the first throw
    ends it. *)
Definition mapM {A B : Type} (f : A -> Result B) : list A -> Result (list B) :=
  fix go (l : list A) : Result (list B) :=
    match l with
    | [] => Ok []
    | x :: l' => let! y := f x in let! ys := go l' in Ok (y :: ys)
    end.

(** *** The [ast] operation *)

Section AstGenerator.

(** [+s], the language's conversion of a string to a number. *)
Variable ToNumber : string -> Number.

(** The text the match ran over; a node's [sourceString] is a slice of it. *)
Variable input : string.

(** [node.ast()].  A terminal goes to [_terminal]; an iteration node maps
    the operation over its children (Ohm's default); the application of a
    rule goes to the rule's entry of the table, whose body is transcribed
    with its calls in the order the source evaluates them; a rule without
    an entry passes the operation to its only child (Ohm's default) and
    fails when it has none or several.  Ohm checks the arity of every
    action against the grammar when the table is created, so no tree it
    builds has a node with another number of children than its action's;
    on such a node the model fails. *)
Fixpoint ast (n : Node) : Result Ast :=
  match n with
  | Terminal _ => Ok (Str (sourceString input n))
  | Iteration _ children => let! a := mapM ast children in Ok (Arr a)
  | Nonterminal rule _ children =>
    match rule, children with
    | Rule.Program, [_1; body; _2] =>
        let! b := ast body in Ok (Program b)
    | Rule.Stmt_simple, [statement; _1] =>
        ast statement
    | Rule.Stmt_while, [_1; test; block] =>
        let! t := ast test in let! b := ast block in Ok (WhileStatement t b)
    | Rule.Stmt_if, [_1; firstTest; firstBlock; _2; moreTests; moreBlocks; _3; lastBlock] =>
        let! t := ast firstTest in
        let! ts := ast moreTests in
        let! ts' := spread ts in
        let tests := Arr (t :: ts') in
        let! b := ast firstBlock in
        let! bs := ast moreBlocks in
        let! bs' := spread bs in
        let consequents := Arr (b :: bs') in
        let! l := ast lastBlock in
        let! alternate := arrayToNullable l in
        Ok (IfStatement tests consequents alternate)
    | Rule.Stmt_loop, [_1; id; _2; firstTest; _3; secondTest; _4; increments; Block] =>
        let! t1 := ast firstTest in
        let! t2 := ast secondTest in
        let tests := Arr [t1; t2] in
        let! i := ast increments in
        let! b := ast Block in
        Ok (FromStatement (Str (sourceString input id)) tests i b)
    | Rule.Stmt_ternary, [trueTest; _1; test; _2; falseTest] =>
        let! t := ast test in
        let! a := ast trueTest in
        let! b := ast falseTest in
        Ok (TernaryExpression t a b)
    | Rule.Stmt_function, [type; id; _1; params; _2; block] =>
        let! t := ast type in
        let! i := ast id in
        let! p := ast params in
        let! b := ast block in
        Ok (FunctionDeclaration t i p b)
    | Rule.SimpleStmt_vardecl, [t; v; _1; e] =>
        let! t' := ast t in let! v' := ast v in let! e' := ast e in
        Ok (VariableDeclaration t' v' e')
    | Rule.SimpleStmt_assign, [v; _1; e] =>
        let! v' := ast v in let! e' := ast e in Ok (AssignmentStatement v' e')
    | Rule.SimpleStmt_break, [_1] =>
        Ok BreakStatement
    | Rule.SimpleStmt_return, [_1; e] =>
        let! e' := ast e in let! v := arrayToNullable e' in Ok (ReturnStatement v)
    | Rule.Block_small, [_1; statement; _2] =>
        let! s := ast statement in Ok (Arr [s])
    | Rule.Block_large, [_1; _2; _3; statements; _4] =>
        ast statements
    | Rule.Exp_or, [left_; op; right_]
    | Rule.Exp_and, [left_; op; right_]
    | Rule.Exp1_binary, [left_; op; right_]
    | Rule.Exp2_binary, [left_; op; right_]
    | Rule.Exp3_binary, [left_; op; right_] =>
        let! o := ast op in let! l := ast left_ in let! r := ast right_ in
        Ok (BinaryExpression o l r)
    | Rule.Exp4_unary, [op; operand] =>
        let! o := ast op in let! x := ast operand in Ok (UnaryExpression o x)
    | Rule.Exp5_parens, [_1; expression; _2] =>
        ast expression
    | Rule.Exp5_list, [_1; expressions; _2] =>
        let! es := ast expressions in Ok (ListExpression es)
    | Rule.Exp5_set, [_1; _2; expressions; _3] =>
        let! es := ast expressions in Ok (SetExpression es)
    | Rule.Exp5_dict, [_1; expressions; _2] =>
        let! es := ast expressions in Ok (DictionaryExpression es)
    | Rule.KeyValue, [id; _1; exp] =>
        let! k := ast id in let! v := ast exp in Ok (KeyValueExpression k v)
    | Rule.Call, [callee; _1; expressions; _2] =>
        let! c := ast callee in let! es := ast expressions in Ok (Call c es)
    | Rule.VarExp_subscripted, [v; _1; e; _2] =>
        let! v' := ast v in let! e' := ast e in Ok (SubscriptedExpression v' e')
    | Rule.VarExp_simple, [id] =>
        let! i := ast id in Ok (IdentifierExpression i)
    | Rule.Param, [type; id; _1; exp] =>
        let! t := ast type in
        let! i := ast id in
        let! e := ast exp in
        let! d := arrayToNullable e in
        Ok (Parameter_ t i d)
    | Rule.Arg, [exp] =>
        let! e := ast exp in Ok (Argument e)
    | Rule.DeclId, [id] =>
        let! i := ast id in Ok (IdDeclaration i)
    | Rule.NumType, [_1] => Ok NumType
    | Rule.StringType, [_1] => Ok StringType
    | Rule.BooleanType, [_1] => Ok BooleanType
    | Rule.ListType, [_1; type; _2] =>
        let! t := ast type in Ok (ListType t)
    | Rule.SetType, [_1; type; _2] =>
        let! t := ast type in Ok (SetType t)
    | Rule.DictType, [_1; keyType; _2; valueType; _3] =>
        let! k := ast keyType in let! v := ast valueType in Ok (DictType k v)
    | Rule.NonemptyListOf, [first; _1; rest] =>
        let! x := ast first in
        let! r := ast rest in
        let! xs := spread r in
        Ok (Arr (x :: xs))
    | Rule.EmptyListOf, [] =>
        Ok (Arr [])
    | Rule.boollit, [_1] =>
        Ok (BooleanLiteral (String.eqb (sourceString input n) "true"))
    | Rule.numlit, [_1; _2; _3; _4; _5; _6] =>
        Ok (NumericLiteral (ToNumber (sourceString input n)))
    | Rule.strlit, [_1; chars; _6] =>
        Ok (StringLiteral (sourceString input n))
    | Rule.id, [_1; _2] =>
        Ok (Str (sourceString input n))
    | Rule.Other _, [child] =>
        ast child
    | _, _ => Throw MissingSemanticAction
    end
  end.

End AstGenerator.

(** *** The exported function *)

Section Parse.

Variable ToNumber : string -> Number.

(** [withIndentsAndDedents] of [./preparser.js], which is not among the
    sources: the text with its indentation made explicit, or a throw. *)
Variable withIndentsAndDedents : string -> Result string.

(** [grammar.match] for the grammar read from [./syntax/casper.ohm], which
    is not among the sources either. *)
Variable grammar_match : string -> MatchResult.

(** [module.exports = (text) => { ... }].  The semantics wrapper
    [astGenerator(match)] reads source strings off the text that was
    matched, which is the preprocessed one. *)
Definition parse (text : string) : Result Ast :=
  let! prepared := withIndentsAndDedents text in
  match grammar_match prepared with
  | MatchFailed message => Throw (Error (String.append "Syntax Error: " message))
  | MatchSucceeded cst => ast ToNumber prepared cst
  end.

End Parse.

End Parser.

(** ** Sample inputs *)

Module Samples.

Import BreakStatement.

(** The contexts of [while true { break }] while its body is analyzed: the
    program's root context at 1, the loop body's context at 2, which points
    back to the root. *)
Definition root_context : gmap string Value :=
  {[ "parent" := Null; "inLoop" := Bool false ]}.

Definition body_context : gmap string Value :=
  {[ "parent" := Ref 1%positive; "inLoop" := Bool true ]}.

Definition contexts : Heap :=
  {[ 1%positive := root_context; 2%positive := body_context ]}.

Import Parser.

(** The conversion on the unsigned decimal integers, which is all the
    samples below need: the double nearest to the integer, [+0] for the
    empty string, and [NaN] for any other text. *)
Fixpoint digits_value (acc : Z) (s : string) : option Z :=
  match s with
  | EmptyString => Some acc
  | String c s' =>
      let d := Z.of_nat (nat_of_ascii c) in
      if ((48 <=? d) && (d <=? 57))%Z
      then digits_value (10 * acc + (d - 48))%Z s'
      else None
  end.

Definition decimal_ToNumber (s : string) : Number :=
  match digits_value 0%Z s with
  | Some z => binary_normalize 53 1024 z 0 false
  | None => S754_nan
  end.

Definition span (s e : nat) : Interval := {| startIdx := s; endIdx := e |}.

Definition token (s e : nat) : Node := Terminal (span s e).

(** One terminal for each position from [s] up to [e]. *)
Definition characters_at (s e : nat) : list Node :=
  map (fun k => token k (S k)) (seq s (e - s)).

Definition boollit_node (s e : nat) : Node :=
  Nonterminal (Rule.Other "Exp") (span s e)
    [Nonterminal Rule.boollit (span s e) [token s e]].

Definition numlit_node (s e : nat) : Node :=
  Nonterminal Rule.numlit (span s e)
    [Iteration (span s e) (characters_at s e); Iteration (span e e) [];
     Iteration (span e e) []; Iteration (span e e) [];
     Iteration (span e e) []; Iteration (span e e) []].

Definition id_node (s e : nat) : Node :=
  Nonterminal Rule.id (span s e)
    [token s (S s); Iteration (span (S s) e) (characters_at (S s) e)].

Definition variable_node (s e : nat) : Node :=
  Nonterminal Rule.VarExp_simple (span s e) [id_node s e].

Definition break_node (s e : nat) : Node :=
  Nonterminal (Rule.Other "SimpleStmt") (span s e)
    [Nonterminal Rule.SimpleStmt_break (span s e) [token s e]].

Definition small_block (s e : nat) (statement : Node) : Node :=
  Nonterminal Rule.Block_small (span s e)
    [token s (S s); statement; token (pred e) e].

(** An if with one more test and a last block. *)
Definition if_text : string :=
  "if true { break } else if false { break } else { break }".

Definition if_more_tests : list Node := [boollit_node 26 31].

Definition if_more_blocks : list Node := [small_block 32 41 (break_node 34 39)].

Definition if_last_block : list Node := [small_block 47 56 (break_node 49 54)].

Definition if_node : Node :=
  Nonterminal Rule.Stmt_if (span 0 56)
    [token 0 2; boollit_node 3 7; small_block 8 17 (break_node 10 15);
     Iteration (span 18 25) [token 18 25];
     Iteration (span 26 31) if_more_tests;
     Iteration (span 32 41) if_more_blocks;
     Iteration (span 42 46) [token 42 46];
     Iteration (span 47 56) if_last_block].

(** A counted loop. *)
Definition loop_text : string := "from i = 0 to 9 by i = 1 { break }".

Definition loop_increments : Node :=
  Iteration (span 19 24)
    [Nonterminal Rule.SimpleStmt_assign (span 19 24)
       [variable_node 19 20; token 21 22; numlit_node 23 24]].

Definition loop_node : Node :=
  Nonterminal Rule.Stmt_loop (span 0 34)
    [token 0 4; id_node 5 6; token 7 8; numlit_node 9 10; token 11 13;
     numlit_node 14 15; token 16 18; loop_increments;
     small_block 25 34 (break_node 27 32)].

(** A return with its value. *)
Definition return_text : string := "return true".

Definition return_node : Node :=
  Nonterminal Rule.SimpleStmt_return (span 0 11)
    [token 0 6; Iteration (span 7 11) [boollit_node 7 11]].

(** A parameter with its default. *)
Definition param_text : string := "num x = 1".

Definition param_node : Node :=
  Nonterminal Rule.Param (span 0 9)
    [Nonterminal Rule.NumType (span 0 3) [token 0 3]; id_node 4 5;
     Iteration (span 6 7) [token 6 7]; Iteration (span 8 9) [numlit_node 8 9]].

(** A ternary. *)
Definition ternary_text : string := "a if true else b".

Definition ternary_node : Node :=
  Nonterminal Rule.Stmt_ternary (span 0 16)
    [variable_node 0 1; token 2 4; boollit_node 5 9; token 10 14;
     variable_node 15 16].

(** A string literal with a backslash in it: a double quote, the three
    characters a, backslash and n, and a double quote. *)
Definition strlit_text : string :=
  String "034" (String "a" (String "\" (String "n" (String "034" EmptyString)))).

Definition strlit_node : Node :=
  Nonterminal Rule.strlit (span 0 5)
    [token 0 1; Iteration (span 1 4) (characters_at 1 4); token 4 5].

(** A preprocessor and a matcher that know one program, [break]. *)
Definition break_only_withIndentsAndDedents (text : string) : Result string :=
  Ok text.

Definition break_program : Node :=
  Nonterminal Rule.Program (span 0 5)
    [Iteration (span 0 0) [];
     Iteration (span 0 5)
       [Nonterminal Rule.Stmt_simple (span 0 5)
          [break_node 0 5; token 5 5]];
     Iteration (span 5 5) []].

Definition break_only_match (prepared : string) : MatchResult :=
  if String.eqb prepared "break"
  then MatchSucceeded break_program
  else MatchFailed "Line 1, col 1: expected a statement".

End Samples.

(** ** Shapes of trees *)

Module Shapes.

Import Parser.

(** The five rules of the expression ladder that share one action body. *)
Definition binary_rule (r : Rule.t) : bool :=
  match r with
  | Rule.Exp_or | Rule.Exp_and | Rule.Exp1_binary | Rule.Exp2_binary
  | Rule.Exp3_binary => true
  | _ => false
  end.

(** [passes_to e n]: the node [n] is [e] inside any number of the rules
    whose action only hands on what one sub-match builds: parentheses, a
    simple statement with its terminator, a large block around its
    statements, and the rules without an action. *)
Inductive passes_to (e : Node) : Node -> Prop :=
| passes_here : passes_to e e
| passes_parens (i : Interval) (k1 n k2 : Node) :
    passes_to e n -> passes_to e (Nonterminal Rule.Exp5_parens i [k1; n; k2])
| passes_simple (i : Interval) (n k : Node) :
    passes_to e n -> passes_to e (Nonterminal Rule.Stmt_simple i [n; k])
| passes_large (i : Interval) (k1 k2 k3 n k4 : Node) :
    passes_to e n ->
    passes_to e (Nonterminal Rule.Block_large i [k1; k2; k3; n; k4])
| passes_other (name : string) (i : Interval) (n : Node) :
    passes_to e n -> passes_to e (Nonterminal (Rule.Other name) i [n]).

End Shapes.

(** ** Further samples *)

Module MoreSamples.

Import Parser Samples.

(** A context object that lacks the flag, at 1, and one whose flag is the
    number 1, at 2. *)
Definition flagless_context : gmap string BreakStatement.Value :=
  {[ "parent" := BreakStatement.Null ]}.

Definition numbered_context : gmap string BreakStatement.Value :=
  {[ "inLoop" := BreakStatement.Num (decimal_ToNumber "1") ]}.

Definition odd_contexts : BreakStatement.Heap :=
  {[ 1%positive := flagless_context; 2%positive := numbered_context ]}.

(** A list of two numbers. *)
Definition list_text : string := "[1, 2]".

Definition list_elements : Node :=
  Nonterminal Rule.NonemptyListOf (span 1 5)
    [numlit_node 1 2; Iteration (span 2 3) [token 2 3];
     Iteration (span 4 5) [numlit_node 4 5]].

Definition list_node : Node :=
  Nonterminal Rule.Exp5_list (span 0 6)
    [token 0 1; Nonterminal (Rule.Other "ListOf") (span 1 5) [list_elements];
     token 5 6].

(** A literal in two pairs of parentheses. *)
Definition parens_text : string := "((true))".

Definition parens_node : Node :=
  Nonterminal Rule.Exp5_parens (span 0 8)
    [token 0 1;
     Nonterminal Rule.Exp5_parens (span 1 7)
       [token 1 2; boollit_node 2 6; token 6 7];
     token 7 8].

(** A product inside a sum. *)
Definition sum_text : string := "1 + 2 * 3".

Definition product_node : Node :=
  Nonterminal Rule.Exp3_binary (span 4 9)
    [numlit_node 4 5; token 6 7; numlit_node 8 9].

Definition sum_node : Node :=
  Nonterminal Rule.Exp2_binary (span 0 9)
    [numlit_node 0 1; token 2 3; product_node].

(** One statement as a small block and as a large block. *)
Definition block_text : string := "{ break }".

Definition large_block : Node :=
  Nonterminal Rule.Block_large (span 0 9)
    [token 0 0; token 0 1; token 1 1;
     Iteration (span 2 7) [break_node 2 7]; token 8 9].

End MoreSamples.

(** * Properties *)

(** ** BreakStatement.analyze *)

Section Analyze.

Import BreakStatement.

(** Whatever it is handed, [analyze] leaves the heap as it found it. *)
Lemma analyze_heap (context : Value) (h : Heap) :
  snd (analyze context h) = h.
Proof.
  unfold analyze, mbind, get_property.
  destruct context; simpl; try reflexivity;
    match goal with |- context [negb ?b] => destruct b end; reflexivity.
Qed.

(** The outcome is decided by [ToBoolean] of the property read. *)
Lemma analyze_object (l : loc) (h : Heap) :
  fst (analyze (Ref l) h) =
  if ToBoolean (default Undefined (default ∅ (h !! l) !! "inLoop"))
  then Ok Undefined
  else Throw (Error "Break Statement out of Loop").
Proof.
  unfold analyze, mbind, get_property.
  destruct (ToBoolean _); reflexivity.
Qed.

(** A context without the flag is refused like one whose flag is false. *)
Lemma analyze_flag_absent (l : loc) (h : Heap) (o : gmap string Value) :
  h !! l = Some o -> o !! "inLoop" = None ->
  fst (analyze (Ref l) h) = Throw (Error "Break Statement out of Loop").
Proof.
  intros Hl Ho. rewrite analyze_object, Hl. simpl. rewrite Ho. reflexivity.
Qed.

(** C1: on a context, [analyze] fails with the diagnostic
    "Break Statement out of Loop" if and only if the context's [inLoop]
    flag is false, and succeeds if and only if the flag is true. *)
Theorem analyze_fails_iff_not_inLoop (h : Heap) (context : Value) (flag : bool) :
  is_Context h context flag ->
  (fst (analyze context h) = Throw (Error "Break Statement out of Loop")
     <-> flag = false)
  /\ (fst (analyze context h) = Ok Undefined <-> flag = true).
Proof.
  intros (l & o & -> & Hl & Ho).
  rewrite analyze_object, Hl. simpl. rewrite Ho. simpl.
  destruct flag; split; split; intros H; try reflexivity; discriminate H.
Qed.

Lemma analyze_fails_iff_not_inLoop_witness :
  is_Context Samples.contexts (Ref 1%positive) false
  /\ is_Context Samples.contexts (Ref 2%positive) true
  /\ fst (analyze (Ref 1%positive) Samples.contexts)
     = Throw (Error "Break Statement out of Loop")
  /\ fst (analyze (Ref 2%positive) Samples.contexts) = Ok Undefined.
Proof.
  assert (H1 : is_Context Samples.contexts (Ref 1%positive) false).
  { exists 1%positive, Samples.root_context. repeat split; reflexivity. }
  assert (H2 : is_Context Samples.contexts (Ref 2%positive) true).
  { exists 2%positive, Samples.body_context. repeat split; reflexivity. }
  split; [exact H1 |]. split; [exact H2 |]. split.
  - apply (analyze_fails_iff_not_inLoop _ _ _ H1). reflexivity.
  - apply (analyze_fails_iff_not_inLoop _ _ _ H2). reflexivity.
Defined.

(** C10: [analyze] never changes the heap, so the context it is handed and
    every other object keep their properties; it either returns
    [undefined], which is no value, or throws. *)
Theorem analyze_frame (context : Value) (h : Heap) :
  analyze context h = (Ok Undefined, h)
  \/ exists e, analyze context h = (Throw e, h).
Proof.
  unfold analyze, mbind, get_property.
  destruct context; simpl; eauto;
    match goal with |- context [negb ?b] => destruct b end; simpl; eauto.
Qed.

End Analyze.

(** ** The builder table *)

Section Builders.

Import Parser.

Variable ToNumber : string -> Number.
Variable input : string.

Local Abbreviation ast := (Parser.ast ToNumber input).

(** Induction over a tree with the hypothesis for every child. *)
Lemma Node_children_ind (P : Node -> Prop) :
  (forall i, P (Terminal i)) ->
  (forall i cs, Forall P cs -> P (Iteration i cs)) ->
  (forall r i cs, Forall P cs -> P (Nonterminal r i cs)) ->
  forall n, P n.
Proof.
  intros HT HI HN. fix IH 1. intros [i | i cs | r i cs].
  - apply HT.
  - apply HI. induction cs as [| c cs IHcs]; constructor; [apply IH | exact IHcs].
  - apply HN. induction cs as [| c cs IHcs]; constructor; [apply IH | exact IHcs].
Qed.

Lemma bind_Ok {A B : Type} (r : Result A) (k : A -> Result B) (b : B) :
  bind r k = Ok b <-> exists a, r = Ok a /\ k a = Ok b.
Proof.
  destruct r as [a | e]; simpl; split.
  - eauto.
  - intros (a' & [= <-] & H). exact H.
  - discriminate.
  - intros (a' & [=] & _).
Qed.

(** [mapM] succeeds exactly when [f] does on every element, and then lists
    the results in the order of the elements. *)
Lemma mapM_Ok {A B : Type} (f : A -> Result B) (l : list A) (vs : list B) :
  mapM f l = Ok vs <-> Forall2 (fun x v => f x = Ok v) l vs.
Proof.
  revert vs. induction l as [| x l IH]; intros vs; simpl.
  - split.
    + intros [= <-]. constructor.
    + intros H. inversion H. reflexivity.
  - rewrite bind_Ok. split.
    + intros (y & Hy & H). apply bind_Ok in H as (ys & Hys & [= <-]).
      constructor; [exact Hy | apply IH, Hys].
    + intros H. inversion H as [| ? y ? ys Hy Hys]; subst.
      exists y. split; [exact Hy |]. apply IH in Hys.
      change (bind (mapM f l) (fun ys0 => Ok (y :: ys0)) = Ok (y :: ys)).
      rewrite Hys. reflexivity.
Qed.

Lemma ast_Iteration (i : Interval) (cs : list Node) (v : Ast) :
  ast (Iteration i cs) = Ok v <->
  exists vs, Forall2 (fun c x => ast c = Ok x) cs vs /\ v = Arr vs.
Proof.
  change (ast (Iteration i cs)) with (bind (mapM ast cs) (fun a => Ok (Arr a))).
  rewrite bind_Ok. split.
  - intros (vs & H & [= <-]). exists vs. split; [apply mapM_Ok, H | reflexivity].
  - intros (vs & H & ->). exists vs. split; [apply mapM_Ok, H | reflexivity].
Qed.

(** The operation never yields a bare [null] or [undefined]: the two only
    ever stand inside a node, where [arrayToNullable] put them. *)
Lemma ast_defined (n : Node) (v : Ast) : ast n = Ok v -> defined v.
Proof.
  revert v. induction n as [i | i cs IH | r i cs IH] using Node_children_ind;
    intros v H.
  - injection H as <-. split; discriminate.
  - apply ast_Iteration in H as (vs & _ & ->). split; discriminate.
  - destruct r;
      do 10 (try (destruct cs as [| ? cs]; [try discriminate H |]));
      try discriminate H;
      simpl in H;
      repeat match goal with
        | H : bind ?r _ = Ok _ |- _ =>
            let E := fresh "E" in
            destruct r eqn:E; simpl in H; [| discriminate H]
        end;
      try (injection H as <-; split; discriminate);
      repeat match goal with
        | F : Forall _ (_ :: _) |- _ => inversion F; subst; clear F
        end;
      eauto.
Qed.

(** *** Source strings *)

Lemma substring_app (n m1 m2 : nat) (s : string) :
  String.append (substring n m1 s) (substring (n + m1) m2 s)
  = substring n (m1 + m2) s.
Proof.
  revert n m1. induction s as [| c s IH]; intros n m1.
  - destruct n, m1; reflexivity.
  - destruct n as [| n].
    + destruct m1 as [| m1]; simpl.
      * destruct m2; reflexivity.
      * change (String c (String.append (substring 0 m1 s) (substring (0 + m1) m2 s))
                = String c (substring 0 (m1 + m2) s)).
        f_equal. apply (IH 0).
    + simpl. apply IH.
Qed.

Lemma substring_nothing (n : nat) (s : string) : substring n 0 s = EmptyString.
Proof.
  revert n. induction s as [| c s IH]; intros [| n]; simpl; auto.
Qed.

Lemma append_empty_r (s : string) : String.append s EmptyString = s.
Proof.
  induction s as [| c s IH]; [reflexivity |].
  change (String c (String.append s EmptyString) = String c s).
  rewrite IH. reflexivity.
Qed.

Lemma contents_app (a b c : nat) :
  a <= b -> b <= c ->
  String.append (contents input {| startIdx := a; endIdx := b |})
                (contents input {| startIdx := b; endIdx := c |})
  = contents input {| startIdx := a; endIdx := c |}.
Proof.
  intros Hab Hbc. unfold contents. simpl.
  replace b with (a + (b - a)) at 2 by lia.
  rewrite substring_app. f_equal. lia.
Qed.

Lemma tiles_le (cs : list Node) (a b : nat) : tiles a b cs -> a <= b.
Proof.
  revert a. induction cs as [| c cs IH]; simpl; intros a.
  - intros ->. reflexivity.
  - intros (_ & H & Hcs). apply IH in Hcs. lia.
Qed.

Lemma tiles_contents (cs : list Node) (a b : nat) :
  tiles a b cs ->
  contents input {| startIdx := a; endIdx := b |}
  = fold_right String.append EmptyString (map (sourceString input) cs).
Proof.
  revert a. induction cs as [| c cs IH]; simpl; intros a.
  - intros ->. unfold contents. simpl. rewrite Nat.sub_diag.
    apply substring_nothing.
  - intros (Ha & Hle & Hcs). rewrite <- (IH _ Hcs).
    rewrite <- (contents_app a (endIdx (source c)) b Hle (tiles_le _ _ _ Hcs)).
    f_equal. unfold sourceString. destruct (source c) as [s e].
    simpl in *. subst s. reflexivity.
Qed.

(** *** Literals *)

(** C3: the boolean-literal builder yields [BooleanLiteral b] where [b] is
    true exactly when the text the node matched is the four characters
    [true]; on any other text it yields [BooleanLiteral false]. *)
Theorem boollit_exact (i : Interval) (c : Node) :
  exists b : bool,
    ast (Nonterminal Rule.boollit i [c]) = Ok (BooleanLiteral b)
    /\ (b = true <-> sourceString input (Nonterminal Rule.boollit i [c]) = "true")
    /\ (b = false <-> sourceString input (Nonterminal Rule.boollit i [c]) <> "true").
Proof.
  exists (String.eqb (sourceString input (Nonterminal Rule.boollit i [c])) "true").
  split; [reflexivity |]. split.
  - apply String.eqb_eq.
  - apply String.eqb_neq.
Qed.

(** C6: the numeric-literal builder yields a [NumericLiteral] whose value is
    the number [ToNumber] reads from the whole text of the match: the slice
    of the input the node spans, which is the text of its six sub-matches
    put end to end. *)
Theorem numlit_value (i : Interval) (c1 c2 c3 c4 c5 c6 : Node) :
  ast (Nonterminal Rule.numlit i [c1; c2; c3; c4; c5; c6])
  = Ok (NumericLiteral (ToNumber (contents input i)))
  /\ (tiles (startIdx i) (endIdx i) [c1; c2; c3; c4; c5; c6] ->
      contents input i
      = fold_right String.append EmptyString
          (map (sourceString input) [c1; c2; c3; c4; c5; c6])).
Proof.
  split; [reflexivity |].
  intros H. destruct i as [a b]. apply tiles_contents, H.
Qed.

(** C7: the string-literal builder yields a [StringLiteral] that stores the
    whole text of the match as it stands in the input: the opening
    delimiter, the characters between and the closing delimiter, none of
    them rewritten. *)
Theorem strlit_raw (i : Interval) (opening chars closing : Node) :
  ast (Nonterminal Rule.strlit i [opening; chars; closing])
  = Ok (StringLiteral (contents input i))
  /\ (tiles (startIdx i) (endIdx i) [opening; chars; closing] ->
      contents input i
      = String.append (sourceString input opening)
          (String.append (sourceString input chars) (sourceString input closing))).
Proof.
  split; [reflexivity |].
  intros H. destruct i as [a b].
  rewrite (tiles_contents [opening; chars; closing] a b H). simpl.
  rewrite append_empty_r. reflexivity.
Qed.

(** *** Statements *)

(** C9: the ternary rule takes the middle sub-expression of
    [trueTest _ test _ falseTest] as the node's test, the first as its
    [ifTrue] and the last as its [ifFalse]. *)
Theorem Stmt_ternary_reorders (i : Interval) (trueTest k1 test k2 falseTest : Node)
    (t a b : Ast) :
  ast test = Ok t -> ast trueTest = Ok a -> ast falseTest = Ok b ->
  ast (Nonterminal Rule.Stmt_ternary i [trueTest; k1; test; k2; falseTest])
  = Ok (TernaryExpression t a b).
Proof.
  intros Ht Ha Hb. simpl. rewrite Ht. simpl. rewrite Ha. simpl. rewrite Hb.
  reflexivity.
Qed.

(** C8: the loop rule yields a [FromStatement] whose loop variable is the
    text of the identifier sub-match (the value the [id] rule builds for
    it), whose tests are the array of the two test expressions in source
    order, and whose increments and body are what those sub-matches built. *)
Theorem Stmt_loop_fields (i : Interval)
    (k1 id k2 firstTest k3 secondTest k4 increments Block : Node)
    (t1 t2 inc body : Ast) :
  ast firstTest = Ok t1 -> ast secondTest = Ok t2 ->
  ast increments = Ok inc -> ast Block = Ok body ->
  ast (Nonterminal Rule.Stmt_loop i
         [k1; id; k2; firstTest; k3; secondTest; k4; increments; Block])
  = Ok (FromStatement (Str (sourceString input id)) (Arr [t1; t2]) inc body)
  /\ (forall j c1 c2, id = Nonterminal Rule.id j [c1; c2] ->
       ast id = Ok (Str (sourceString input id))).
Proof.
  intros H1 H2 Hi Hb. split.
  - simpl. rewrite H1. simpl. rewrite H2. simpl. rewrite Hi. simpl. rewrite Hb.
    reflexivity.
  - intros j c1 c2 ->. reflexivity.
Qed.

(** *** Optional sub-matches *)

(** C4: [arrayToNullable] takes the array [[x]] to [x] and the empty array
    to [null], and the rules that read an optional sub-match through it
    store the result: the return statement's value and the parameter's
    default are the sub-match's value when it is there and [null] when it
    is not.  (The third such rule, the if statement with its last block, is
    treated with the if statement below.) *)
Theorem optional_collapses :
  arrayToNullable (Arr []) = Ok Null
  /\ (forall x, arrayToNullable (Arr [x]) = Ok x)
  /\ (forall i k j,
        ast (Nonterminal Rule.SimpleStmt_return i [k; Iteration j []])
        = Ok (ReturnStatement Null))
  /\ (forall i k j e v, ast e = Ok v ->
        ast (Nonterminal Rule.SimpleStmt_return i [k; Iteration j [e]])
        = Ok (ReturnStatement v))
  /\ (forall i type id k j t n, ast type = Ok t -> ast id = Ok n ->
        ast (Nonterminal Rule.Param i [type; id; k; Iteration j []])
        = Ok (Parameter_ t n Null))
  /\ (forall i type id k j e t n v,
        ast type = Ok t -> ast id = Ok n -> ast e = Ok v ->
        ast (Nonterminal Rule.Param i [type; id; k; Iteration j [e]])
        = Ok (Parameter_ t n v)).
Proof.
  repeat split.
  - intros i k j e v He. simpl. rewrite He. reflexivity.
  - intros i type id k j t n Ht Hn. simpl. rewrite Ht. simpl. rewrite Hn.
    reflexivity.
  - intros i type id k j e t n v Ht Hn He. simpl. rewrite Ht. simpl.
    rewrite Hn. simpl. rewrite He. reflexivity.
Qed.

(** *** The if statement *)

Lemma ast_Stmt_if (i : Interval)
    (k1 firstTest firstBlock k2 moreTests moreBlocks k3 lastBlock : Node) :
  ast (Nonterminal Rule.Stmt_if i
         [k1; firstTest; firstBlock; k2; moreTests; moreBlocks; k3; lastBlock])
  = (let! t := ast firstTest in
     let! ts := ast moreTests in
     let! ts' := spread ts in
     let! b := ast firstBlock in
     let! bs := ast moreBlocks in
     let! bs' := spread bs in
     let! l := ast lastBlock in
     let! alternate := arrayToNullable l in
     Ok (IfStatement (Arr (t :: ts')) (Arr (b :: bs')) alternate)).
Proof. reflexivity. Qed.

(** The rule builds a node as soon as each of its tests and blocks does. *)
Lemma Stmt_if_builds (i j3 j4 j6 : Interval)
    (k1 firstTest firstBlock k2 k3 : Node) (moreTests moreBlocks lastBlock : list Node)
    (tests consequents alternates : list Ast) :
  Forall2 (fun n v => ast n = Ok v) (firstTest :: moreTests) tests ->
  Forall2 (fun n v => ast n = Ok v) (firstBlock :: moreBlocks) consequents ->
  Forall2 (fun n v => ast n = Ok v) lastBlock alternates ->
  ast (Nonterminal Rule.Stmt_if i
         [k1; firstTest; firstBlock; k2; Iteration j3 moreTests;
          Iteration j4 moreBlocks; k3; Iteration j6 lastBlock])
  = Ok (IfStatement (Arr tests) (Arr consequents)
          (match alternates with [] => Null | a :: _ => a end)).
Proof.
  intros Ht Hb Hl. rewrite ast_Stmt_if.
  inversion Ht as [| ? t ? ts Ht1 Hts]; subst.
  inversion Hb as [| ? b ? bs Hb1 Hbs]; subst.
  assert (E3 : ast (Iteration j3 moreTests) = Ok (Arr ts))
    by (apply ast_Iteration; eauto).
  assert (E4 : ast (Iteration j4 moreBlocks) = Ok (Arr bs))
    by (apply ast_Iteration; eauto).
  assert (E6 : ast (Iteration j6 lastBlock) = Ok (Arr alternates))
    by (apply ast_Iteration; eauto).
  rewrite Ht1, E3, Hb1, E4, E6. destruct alternates; reflexivity.
Qed.

(** C5: in the [IfStatement] the rule builds, the tests and the consequents
    have the same length, the test and the consequent at each index are
    built from the test and the block at that index of the source (the
    first pair, then the further pairs in order), and the alternate is
    [null] exactly when there is no last block.  The further tests and the
    further blocks are the two columns of one repetition, so there are as
    many of the one as of the other. *)
Theorem Stmt_if_aligned (i j3 j4 j6 : Interval)
    (k1 firstTest firstBlock k2 k3 : Node) (moreTests moreBlocks lastBlock : list Node)
    (v : Ast) :
  length moreTests = length moreBlocks ->
  ast (Nonterminal Rule.Stmt_if i
         [k1; firstTest; firstBlock; k2; Iteration j3 moreTests;
          Iteration j4 moreBlocks; k3; Iteration j6 lastBlock]) = Ok v ->
  exists tests consequents alternate,
    v = IfStatement (Arr tests) (Arr consequents) alternate
    /\ length tests = S (length moreTests)
    /\ length consequents = length tests
    /\ (forall (n : nat) (test block : Node),
          (firstTest :: moreTests) !! n = Some test ->
          (firstBlock :: moreBlocks) !! n = Some block ->
          exists t b, tests !! n = Some t /\ consequents !! n = Some b
                      /\ ast test = Ok t /\ ast block = Ok b)
    /\ (alternate = Null <-> lastBlock = []).
Proof.
  intros Hlen H. rewrite ast_Stmt_if in H.
  apply bind_Ok in H as (t & Ht & H).
  apply bind_Ok in H as (ts & Hts & H).
  apply ast_Iteration in Hts as (tvs & Fts & ->).
  apply bind_Ok in H as (ts' & [= <-] & H).
  apply bind_Ok in H as (b & Hb & H).
  apply bind_Ok in H as (bs & Hbs & H).
  apply ast_Iteration in Hbs as (bvs & Fbs & ->).
  apply bind_Ok in H as (bs' & [= <-] & H).
  apply bind_Ok in H as (l & Hl & H).
  apply ast_Iteration in Hl as (lvs & Fl & ->).
  apply bind_Ok in H as (alternate & Halt & [= <-]).
  assert (Ft : Forall2 (fun n x => ast n = Ok x) (firstTest :: moreTests) (t :: tvs))
    by (constructor; assumption).
  assert (Fb : Forall2 (fun n x => ast n = Ok x) (firstBlock :: moreBlocks) (b :: bvs))
    by (constructor; assumption).
  exists (t :: tvs), (b :: bvs), alternate. split; [reflexivity |].
  pose proof (Forall2_length _ _ _ Fts) as Lt.
  pose proof (Forall2_length _ _ _ Fbs) as Lb.
  split; [simpl; congruence |]. split; [simpl; congruence |]. split.
  - intros n test block Hn Hm.
    destruct (Forall2_lookup_l _ _ _ _ _ Ft Hn) as (tv & Htv & Etv).
    destruct (Forall2_lookup_l _ _ _ _ _ Fb Hm) as (bv & Hbv & Ebv).
    exists tv, bv. auto.
  - destruct Fl as [| x y l l' Hx Fl]; simpl in Halt.
    + injection Halt as <-. split; reflexivity.
    + injection Halt as <-. apply ast_defined in Hx as [Hx _].
      split; [intros E; contradiction | discriminate].
Qed.

End Builders.

(** ** The exported function *)

Section ParseProperties.

Import Parser.

Variable ToNumber : string -> Number.
Variable withIndentsAndDedents : string -> Result string.
Variable grammar_match : string -> MatchResult.

Local Abbreviation parse :=
  (Parser.parse ToNumber withIndentsAndDedents grammar_match).

(** A throw of the preprocessor is the throw of [parse]: the match is
    never run. *)
Lemma parse_preprocessor_throws (text : string) (e : Exn) :
  withIndentsAndDedents text = Throw e -> parse text = Throw e.
Proof. intros H. unfold Parser.parse. rewrite H. reflexivity. Qed.

(** C2: once the text is preprocessed, a failed match makes [parse] throw
    an [Error] whose message is "Syntax Error: " followed by the match's
    message, so that no tree is returned; a match that succeeds makes
    [parse] return what the [ast] operation builds from the match's tree,
    nothing less and nothing else. *)
Theorem parse_all_or_nothing (text prepared : string) :
  withIndentsAndDedents text = Ok prepared ->
  (forall message, grammar_match prepared = MatchFailed message ->
     parse text = Throw (Error (String.append "Syntax Error: " message))
     /\ forall tree, parse text <> Ok tree)
  /\ (forall cst, grammar_match prepared = MatchSucceeded cst ->
     parse text = ast ToNumber prepared cst).
Proof.
  intros Hp. unfold Parser.parse. rewrite Hp. simpl bind. split.
  - intros message Hm. rewrite Hm. split; [reflexivity | discriminate].
  - intros cst Hm. rewrite Hm. reflexivity.
Qed.

End ParseProperties.

(** ** The properties on the samples *)

Section OnSamples.

Import Parser Samples.

Lemma parse_all_or_nothing_witness :
  parse decimal_ToNumber break_only_withIndentsAndDedents break_only_match "break"
  = Ok (Program (Arr [BreakStatement]))
  /\ parse decimal_ToNumber break_only_withIndentsAndDedents break_only_match "brea"
     = Throw (Error "Syntax Error: Line 1, col 1: expected a statement").
Proof.
  split.
  - rewrite (proj2 (parse_all_or_nothing decimal_ToNumber
                      break_only_withIndentsAndDedents break_only_match
                      "break" "break" eq_refl) break_program eq_refl).
    reflexivity.
  - apply (parse_all_or_nothing decimal_ToNumber
             break_only_withIndentsAndDedents break_only_match
             "brea" "brea" eq_refl).
    reflexivity.
Defined.

(** [true] is the literal true; the longer [truex], were the rule ever
    applied to it, would be the literal false. *)
Example boollit_true :
  ast decimal_ToNumber "true" (Nonterminal Rule.boollit (span 0 4) [token 0 4])
  = Ok (BooleanLiteral true).
Proof. reflexivity. Qed.

Example boollit_truex :
  ast decimal_ToNumber "truex" (Nonterminal Rule.boollit (span 0 5) [token 0 5])
  = Ok (BooleanLiteral false).
Proof. reflexivity. Qed.

Lemma optional_collapses_witness :
  ast decimal_ToNumber return_text return_node
  = Ok (ReturnStatement (BooleanLiteral true))
  /\ ast decimal_ToNumber return_text
       (Nonterminal Rule.SimpleStmt_return (span 0 6)
          [token 0 6; Iteration (span 6 6) []])
     = Ok (ReturnStatement Null)
  /\ ast decimal_ToNumber param_text param_node
     = Ok (Parameter_ NumType (Str "x")
             (NumericLiteral (S754_finite false 4503599627370496 (-52)))).
Proof.
  destruct (optional_collapses decimal_ToNumber return_text)
    as (_ & _ & Hnone & Hsome & _).
  destruct (optional_collapses decimal_ToNumber param_text)
    as (_ & _ & _ & _ & _ & Hparam).
  split; [| split].
  - apply Hsome. reflexivity.
  - apply Hnone.
  - apply Hparam; reflexivity.
Defined.

Lemma numlit_value_witness :
  ast decimal_ToNumber param_text (numlit_node 8 9)
  = Ok (NumericLiteral (decimal_ToNumber "1"))
  /\ contents param_text (span 8 9) = "1".
Proof.
  destruct (numlit_value decimal_ToNumber param_text (span 8 9)
              (Iteration (span 8 9) (characters_at 8 9))
              (Iteration (span 9 9) []) (Iteration (span 9 9) [])
              (Iteration (span 9 9) []) (Iteration (span 9 9) [])
              (Iteration (span 9 9) [])) as [Hv Ht].
  split.
  - exact Hv.
  - rewrite Ht; [reflexivity |]. simpl. repeat split; lia.
Defined.

Lemma strlit_raw_witness :
  ast decimal_ToNumber strlit_text strlit_node = Ok (StringLiteral strlit_text)
  /\ contents strlit_text (span 0 5)
     = String.append (String "034" EmptyString)
         (String.append "a\n" (String "034" EmptyString)).
Proof.
  destruct (strlit_raw decimal_ToNumber strlit_text (span 0 5)
              (token 0 1) (Iteration (span 1 4) (characters_at 1 4)) (token 4 5))
    as [Hv Ht].
  split.
  - exact Hv.
  - rewrite Ht; [reflexivity |]. simpl. repeat split; lia.
Defined.

Lemma Stmt_ternary_reorders_witness :
  ast decimal_ToNumber ternary_text ternary_node
  = Ok (TernaryExpression (BooleanLiteral true)
          (IdentifierExpression (Str "a")) (IdentifierExpression (Str "b"))).
Proof.
  apply (Stmt_ternary_reorders decimal_ToNumber ternary_text); reflexivity.
Defined.

Lemma Stmt_loop_fields_witness :
  ast decimal_ToNumber loop_text loop_node
  = Ok (FromStatement (Str "i")
          (Arr [NumericLiteral (decimal_ToNumber "0");
                NumericLiteral (decimal_ToNumber "9")])
          (Arr [AssignmentStatement (IdentifierExpression (Str "i"))
                  (NumericLiteral (decimal_ToNumber "1"))])
          (Arr [BreakStatement]))
  /\ ast decimal_ToNumber loop_text (id_node 5 6) = Ok (Str "i").
Proof.
  destruct (Stmt_loop_fields decimal_ToNumber loop_text (span 0 34)
              (token 0 4) (id_node 5 6) (token 7 8) (numlit_node 9 10)
              (token 11 13) (numlit_node 14 15) (token 16 18) loop_increments
              (small_block 25 34 (break_node 27 32))
              _ _ _ _ eq_refl eq_refl eq_refl eq_refl) as [Hv Hid].
  split.
  - exact Hv.
  - exact (Hid _ _ _ eq_refl).
Defined.

Lemma Stmt_if_aligned_witness :
  exists tests consequents alternate,
    ast decimal_ToNumber if_text if_node
    = Ok (IfStatement (Arr tests) (Arr consequents) alternate)
    /\ length tests = 2
    /\ length consequents = length tests
    /\ alternate <> Null.
Proof.
  destruct (Stmt_if_aligned decimal_ToNumber if_text
              (span 0 56) (span 26 31) (span 32 41) (span 47 56)
              (token 0 2) (boollit_node 3 7) (small_block 8 17 (break_node 10 15))
              (Iteration (span 18 25) [token 18 25])
              (Iteration (span 42 46) [token 42 46])
              if_more_tests if_more_blocks if_last_block
              _ eq_refl eq_refl)
    as (tests & consequents & alternate & Hv & Ht & Hc & _ & Hnull).
  exists tests, consequents, alternate.
  split; [rewrite <- Hv; reflexivity |]. split; [exact Ht |].
  split; [exact Hc |]. intros E. apply Hnull in E. discriminate E.
Defined.

End OnSamples.

(** * Further properties *)

(** ** The table as a whole *)

Section Table.

Import Parser Shapes.

Variable ToNumber : string -> Number.
Variable input : string.

Local Abbreviation ast := (Parser.ast ToNumber input).

Lemma Forall2_built_lookup (ns : list Node) (vs : list Ast) :
  Forall2 (fun n v => ast n = Ok v) ns vs ->
  length vs = length ns
  /\ forall (k : nat) (n : Node), ns !! k = Some n ->
       exists v, vs !! k = Some v /\ ast n = Ok v.
Proof.
  intros F. split.
  - symmetry. exact (Forall2_length _ _ _ F).
  - intros k n Hk. exact (Forall2_lookup_l _ _ _ _ _ F Hk).
Qed.

(** X1: whatever the tree, the operation never returns a bare [null] or
    [undefined]: the two only occur as fields of a node. *)
Theorem ast_never_null (n : Node) :
  ast n <> Ok Null /\ ast n <> Ok Undefined.
Proof.
  split; intros H; apply ast_defined in H; destruct H as [H1 H2]; congruence.
Qed.

(** X2: the program rule builds a [Program] whose body has one element for
    each statement of the repetition, the element at each index built from
    the statement at that index. *)
Theorem Program_statements_in_order (i j : Interval) (k1 k2 : Node)
    (statements : list Node) (v : Ast) :
  ast (Nonterminal Rule.Program i [k1; Iteration j statements; k2]) = Ok v ->
  exists body,
    v = Program (Arr body)
    /\ length body = length statements
    /\ forall (k : nat) (statement : Node), statements !! k = Some statement ->
         exists b, body !! k = Some b /\ ast statement = Ok b.
Proof.
  intros H.
  change (bind (ast (Iteration j statements)) (fun b => Ok (Program b)) = Ok v) in H.
  apply bind_Ok in H as (b & Hb & [= <-]).
  apply ast_Iteration in Hb as (body & F & ->).
  exists body. split; [reflexivity |]. apply Forall2_built_lookup, F.
Qed.

(** X3: a non-empty list builds an array with one element for the first
    item and one for each further item, in the order of the source, and
    builds it exactly when every item builds; the empty list builds the
    empty array. *)
Theorem ListOf_in_order (i j : Interval) (first k : Node) (rest : list Node) :
  (forall v,
     ast (Nonterminal Rule.NonemptyListOf i [first; k; Iteration j rest]) = Ok v
     <-> exists vs, Forall2 (fun n x => ast n = Ok x) (first :: rest) vs
                    /\ v = Arr vs)
  /\ (forall vs,
        ast (Nonterminal Rule.NonemptyListOf i [first; k; Iteration j rest])
        = Ok (Arr vs) ->
        length vs = S (length rest)
        /\ forall (m : nat) (item : Node), (first :: rest) !! m = Some item ->
             exists x, vs !! m = Some x /\ ast item = Ok x)
  /\ ast (Nonterminal Rule.EmptyListOf i []) = Ok (Arr []).
Proof.
  assert (E : forall v,
     ast (Nonterminal Rule.NonemptyListOf i [first; k; Iteration j rest]) = Ok v
     <-> exists vs, Forall2 (fun n x => ast n = Ok x) (first :: rest) vs
                    /\ v = Arr vs).
  { intros v.
    change (ast (Nonterminal Rule.NonemptyListOf i [first; k; Iteration j rest]))
      with (let! x := ast first in
            let! r := ast (Iteration j rest) in
            let! xs := spread r in
            Ok (Arr (x :: xs))).
    split.
    - intros H. apply bind_Ok in H as (x & Hx & H).
      apply bind_Ok in H as (r & Hr & H).
      apply ast_Iteration in Hr as (xs & F & ->).
      apply bind_Ok in H as (xs' & [= <-] & [= <-]).
      exists (x :: xs). split; [constructor; assumption | reflexivity].
    - intros (vs & F & ->). inversion F as [| ? x ? xs Hx Fxs]; subst.
      assert (Er : ast (Iteration j rest) = Ok (Arr xs))
        by (apply ast_Iteration; eauto).
      rewrite Hx, Er. reflexivity. }
  split; [exact E |]. split; [| reflexivity].
  intros vs H. apply E in H as (vs' & F & [= <-]).
  apply Forall2_built_lookup in F. exact F.
Qed.

(** X4: parentheses, the terminator of a simple statement, the delimiters
    of a large block and the rules without an action leave no trace: a node
    wrapped in any number of them builds what the node itself builds, and
    fails as it fails. *)
Theorem wrappers_leave_no_trace (e n : Node) :
  passes_to e n -> ast n = ast e.
Proof.
  induction 1 as [| i k1 n k2 _ IH | i n k _ IH | i k1 k2 k3 n k4 _ IH
                  | name i n _ IH]; [reflexivity | exact IH ..].
Qed.

(** X5: the five binary rules of the expression ladder build the same
    node from the same sub-matches [left op right]: a [BinaryExpression]
    with the operator first, then the left and the right operand; the level
    that matched is not recorded. *)
Theorem binary_levels_one_shape (rule : Rule.t) (i : Interval)
    (left_ op right_ : Node) (o l r : Ast) :
  binary_rule rule = true ->
  ast op = Ok o -> ast left_ = Ok l -> ast right_ = Ok r ->
  ast (Nonterminal rule i [left_; op; right_]) = Ok (BinaryExpression o l r).
Proof.
  intros Hr Ho Hl Hrt.
  destruct rule; try discriminate Hr;
    (change (ast (Nonterminal _ i [left_; op; right_]))
       with (let! o := ast op in let! l := ast left_ in let! r := ast right_ in
             Ok (BinaryExpression o l r));
     rewrite Ho, Hl, Hrt; reflexivity).
Qed.

(** X6: in a return statement and in a parameter, the stored value is
    [null] exactly when the optional sub-match is absent: a value that is
    present is never [null]. *)
Theorem optional_null_iff_absent (i j : Interval) (k : Node) (e : list Node) :
  (forall v,
     ast (Nonterminal Rule.SimpleStmt_return i [k; Iteration j e]) = Ok v ->
     exists x, v = ReturnStatement x /\ (x = Null <-> e = []))
  /\ (forall type id v,
        ast (Nonterminal Rule.Param i [type; id; k; Iteration j e]) = Ok v ->
        exists t n x, v = Parameter_ t n x /\ (x = Null <-> e = [])).
Proof.
  assert (N : forall l x,
    ast (Iteration j e) = Ok l -> arrayToNullable l = Ok x ->
    (x = Null <-> e = [])).
  { intros l x Hl Hx. apply ast_Iteration in Hl as (vs & F & ->).
    destruct F as [| n y ns ys Hn F]; simpl in Hx; injection Hx as <-.
    - split; reflexivity.
    - apply ast_defined in Hn as [Hn _].
      split; [intros E; contradiction | discriminate]. }
  split.
  - intros v H.
    change (bind (ast (Iteration j e))
              (fun e' => let! x := arrayToNullable e' in Ok (ReturnStatement x))
            = Ok v) in H.
    apply bind_Ok in H as (l & Hl & H).
    apply bind_Ok in H as (x & Hx & [= <-]).
    exists x. split; [reflexivity | exact (N l x Hl Hx)].
  - intros type id v H.
    change (bind (ast type) (fun t =>
              let! n := ast id in
              let! e' := ast (Iteration j e) in
              let! d := arrayToNullable e' in
              Ok (Parameter_ t n d)) = Ok v) in H.
    apply bind_Ok in H as (t & _ & H).
    apply bind_Ok in H as (n & _ & H).
    apply bind_Ok in H as (l & Hl & H).
    apply bind_Ok in H as (x & Hx & [= <-]).
    exists t, n, x. split; [reflexivity | exact (N l x Hl Hx)].
Qed.

(** X7: one statement builds the same body whether it is written as a
    small block or as the only statement of a large block. *)
Theorem block_forms_agree (i i' j : Interval)
    (k1 k2 k1' k2' k3' k4' statement : Node) :
  ast (Nonterminal Rule.Block_small i [k1; statement; k2])
  = ast (Nonterminal Rule.Block_large i'
           [k1'; k2'; k3'; Iteration j [statement]; k4']).
Proof.
  change (bind (ast statement) (fun s => Ok (Arr [s]))
          = bind (bind (ast statement)
                    (fun y => let! ys := Ok [] in Ok (y :: ys)))
              (fun a => Ok (Arr a))).
  destruct (ast statement); reflexivity.
Qed.

(** X8: the if rule builds a node exactly when its tests, its blocks and
    its last block, if any, all build, and the node holds what they
    built. *)
Theorem Stmt_if_builds_iff (i j3 j4 j6 : Interval)
    (k1 firstTest firstBlock k2 k3 : Node)
    (moreTests moreBlocks lastBlock : list Node) (v : Ast) :
  ast (Nonterminal Rule.Stmt_if i
         [k1; firstTest; firstBlock; k2; Iteration j3 moreTests;
          Iteration j4 moreBlocks; k3; Iteration j6 lastBlock]) = Ok v
  <-> exists tests consequents alternates,
        Forall2 (fun n x => ast n = Ok x) (firstTest :: moreTests) tests
        /\ Forall2 (fun n x => ast n = Ok x) (firstBlock :: moreBlocks) consequents
        /\ Forall2 (fun n x => ast n = Ok x) lastBlock alternates
        /\ v = IfStatement (Arr tests) (Arr consequents)
                 (match alternates with [] => Null | a :: _ => a end).
Proof.
  split.
  - intros H. rewrite ast_Stmt_if in H.
    apply bind_Ok in H as (t & Ht & H).
    apply bind_Ok in H as (ts & Hts & H).
    apply ast_Iteration in Hts as (tvs & Fts & ->).
    apply bind_Ok in H as (ts' & [= <-] & H).
    apply bind_Ok in H as (b & Hb & H).
    apply bind_Ok in H as (bs & Hbs & H).
    apply ast_Iteration in Hbs as (bvs & Fbs & ->).
    apply bind_Ok in H as (bs' & [= <-] & H).
    apply bind_Ok in H as (l & Hl & H).
    apply ast_Iteration in Hl as (lvs & Fl & ->).
    apply bind_Ok in H as (alternate & Halt & [= <-]).
    exists (t :: tvs), (b :: bvs), lvs.
    split; [constructor; assumption |]. split; [constructor; assumption |].
    split; [exact Fl |].
    destruct lvs; simpl in Halt; injection Halt as <-; reflexivity.
  - intros (tests & consequents & alternates & Ft & Fb & Fl & ->).
    apply Stmt_if_builds; assumption.
Qed.

End Table.

(** ** BreakStatement.analyze on any argument *)

Section AnalyzeAnywhere.

Import BreakStatement.

(** X9: on an object, [analyze] goes by the truthiness of whatever the
    object holds under [inLoop]: it returns when the value is truthy and
    throws the diagnostic when it is falsy; an object without the property
    is refused. *)
Theorem analyze_by_truthiness (h : Heap) (l : loc) (o : gmap string Value) :
  h !! l = Some o ->
  (fst (analyze (Ref l) h) = Ok Undefined
     <-> ToBoolean (default Undefined (o !! "inLoop")) = true)
  /\ (fst (analyze (Ref l) h) = Throw (Error "Break Statement out of Loop")
        <-> ToBoolean (default Undefined (o !! "inLoop")) = false)
  /\ (o !! "inLoop" = None ->
        fst (analyze (Ref l) h) = Throw (Error "Break Statement out of Loop")).
Proof.
  intros Hl. rewrite analyze_object, Hl. simpl. split; [| split].
  - destruct (ToBoolean _); split; intros H; try reflexivity; discriminate H.
  - destruct (ToBoolean _); split; intros H; try reflexivity; discriminate H.
  - intros Ho. rewrite Ho. reflexivity.
Qed.

(** X10: [analyze] throws a [TypeError], and not its diagnostic, exactly
    when it is handed [undefined] or [null]. *)
Theorem analyze_TypeError_iff (context : Value) (h : Heap) :
  fst (analyze context h) = Throw TypeError
  <-> context = Undefined \/ context = Null.
Proof.
  split.
  - intros H. destruct context as [| | b | n | s | l]; auto; exfalso.
    + discriminate H.
    + discriminate H.
    + discriminate H.
    + rewrite analyze_object in H. destruct (ToBoolean _); discriminate H.
  - intros [-> | ->]; reflexivity.
Qed.

(** X11: a computation that follows [analyze] runs on the heap [analyze]
    was given when [analyze] returns, and is not run when it throws; so
    analyzing twice is analyzing once. *)
Theorem analyze_then {A : Type} (context : Value) (m : M A) (h : Heap) :
  mbind (analyze context) (fun _ => m) h
  = match fst (analyze context h) with
    | Ok _ => m h
    | Throw e => (Throw e, h)
    end
  /\ mbind (analyze context) (fun _ => analyze context) h = analyze context h.
Proof.
  assert (E : forall B (k : M B),
    mbind (analyze context) (fun _ => k) h
    = match fst (analyze context h) with
      | Ok _ => k h
      | Throw e => (Throw e, h)
      end).
  { intros B k. unfold mbind at 1.
    pose proof (analyze_heap context h) as Hh.
    destruct (analyze context h) as [[v | e] h']; simpl in *; subst h';
      reflexivity. }
  split; [apply E |]. rewrite E.
  pose proof (analyze_heap context h) as Hh.
  destruct (analyze context h) as [[v | e] h']; simpl in *; subst h';
    reflexivity.
Qed.

End AnalyzeAnywhere.

(** ** The exported function, in full *)

Section ParseOutcomes.

Import Parser.

Variable ToNumber : string -> Number.
Variable withIndentsAndDedents : string -> Result string.
Variable grammar_match : string -> MatchResult.

Local Abbreviation parse :=
  (Parser.parse ToNumber withIndentsAndDedents grammar_match).

(** X12: [parse] returns a tree only when the preprocessor returned, the
    match over the preprocessed text succeeded and the table built the tree
    from the match; what it returns is never [null] or [undefined]. *)
Theorem parse_returns_built_tree (text : string) (tree : Ast) :
  parse text = Ok tree ->
  (exists prepared cst,
     withIndentsAndDedents text = Ok prepared
     /\ grammar_match prepared = MatchSucceeded cst
     /\ ast ToNumber prepared cst = Ok tree)
  /\ tree <> Null /\ tree <> Undefined.
Proof.
  unfold Parser.parse. intros H.
  apply bind_Ok in H as (prepared & Hp & H).
  destruct (grammar_match prepared) as [cst | message] eqn:Hm;
    [| discriminate H].
  split.
  - exists prepared, cst. auto.
  - exact (ast_defined _ _ _ _ H).
Qed.

(** X13: [parse] throws in three ways and no other: the preprocessor's
    throw, passed on as it is; an [Error] whose message is "Syntax Error: "
    and the message of a failed match; the throw of the table on the tree
    of a match that succeeded. *)
Theorem parse_throws_iff (text : string) (e : Exn) :
  parse text = Throw e
  <-> withIndentsAndDedents text = Throw e
      \/ (exists prepared message,
            withIndentsAndDedents text = Ok prepared
            /\ grammar_match prepared = MatchFailed message
            /\ e = Error (String.append "Syntax Error: " message))
      \/ (exists prepared cst,
            withIndentsAndDedents text = Ok prepared
            /\ grammar_match prepared = MatchSucceeded cst
            /\ ast ToNumber prepared cst = Throw e).
Proof.
  unfold Parser.parse.
  destruct (withIndentsAndDedents text) as [prepared | e'] eqn:Hp; simpl bind.
  - destruct (grammar_match prepared) as [cst | message] eqn:Hm.
    + split.
      * intros H. right. right. exists prepared, cst. auto.
      * intros [H | [(p & m & [= <-] & Hm' & _) | (p & c & [= <-] & Hm' & H)]].
        -- discriminate H.
        -- rewrite Hm in Hm'. discriminate Hm'.
        -- rewrite Hm in Hm'. injection Hm' as <-. exact H.
    + split.
      * intros [= <-]. right. left. exists prepared, message. auto.
      * intros [H | [(p & m & [= <-] & Hm' & ->) | (p & c & [= <-] & Hm' & _)]].
        -- discriminate H.
        -- rewrite Hm in Hm'. injection Hm' as <-. reflexivity.
        -- rewrite Hm in Hm'. discriminate Hm'.
  - split.
    + intros [= <-]. left. reflexivity.
    + intros [[= <-] | [(p & m & H & _) | (p & c & H & _)]];
        [reflexivity | discriminate H | discriminate H].
Qed.

End ParseOutcomes.

(** ** The further properties on the samples *)

Section OnMoreSamples.

Import Parser Shapes Samples MoreSamples.

Lemma Program_statements_in_order_witness :
  exists body,
    ast decimal_ToNumber "break" break_program = Ok (Program (Arr body))
    /\ length body = 1.
Proof.
  destruct (Program_statements_in_order decimal_ToNumber "break"
              (span 0 5) (span 0 5)
              (Iteration (span 0 0) []) (Iteration (span 5 5) [])
              [Nonterminal Rule.Stmt_simple (span 0 5) [break_node 0 5; token 5 5]]
              _ eq_refl) as (body & Hv & Hl & _).
  exists body. split; [rewrite <- Hv; reflexivity | exact Hl].
Defined.

Lemma ListOf_in_order_witness :
  ast decimal_ToNumber list_text list_elements
  = Ok (Arr [NumericLiteral (decimal_ToNumber "1");
             NumericLiteral (decimal_ToNumber "2")]).
Proof.
  apply (ListOf_in_order decimal_ToNumber list_text).
  eexists. split; [| reflexivity].
  repeat constructor.
Defined.

Lemma wrappers_leave_no_trace_witness :
  ast decimal_ToNumber parens_text parens_node
  = ast decimal_ToNumber parens_text
      (Nonterminal Rule.boollit (span 2 6) [token 2 6]).
Proof.
  apply wrappers_leave_no_trace.
  apply passes_parens, passes_parens, passes_other, passes_here.
Defined.

Lemma binary_levels_one_shape_witness :
  ast decimal_ToNumber sum_text sum_node
  = Ok (BinaryExpression (Str "+") (NumericLiteral (decimal_ToNumber "1"))
          (BinaryExpression (Str "*") (NumericLiteral (decimal_ToNumber "2"))
             (NumericLiteral (decimal_ToNumber "3")))).
Proof.
  apply (binary_levels_one_shape decimal_ToNumber sum_text); [reflexivity .. |].
  apply (binary_levels_one_shape decimal_ToNumber sum_text); reflexivity.
Defined.

Lemma optional_null_iff_absent_witness :
  exists x, ast decimal_ToNumber return_text return_node = Ok (ReturnStatement x)
            /\ x <> Null.
Proof.
  destruct (proj1 (optional_null_iff_absent decimal_ToNumber return_text
                     (span 0 11) (span 7 11) (token 0 6) [boollit_node 7 11])
              _ eq_refl) as (x & Hv & Hx).
  exists x. split; [rewrite <- Hv; reflexivity |].
  intros E. apply Hx in E. discriminate E.
Defined.

Lemma analyze_by_truthiness_witness :
  fst (BreakStatement.analyze (BreakStatement.Ref 1%positive) odd_contexts)
  = Throw (Error "Break Statement out of Loop")
  /\ fst (BreakStatement.analyze (BreakStatement.Ref 2%positive) odd_contexts)
     = Ok BreakStatement.Undefined.
Proof.
  split.
  - apply (analyze_by_truthiness odd_contexts 1%positive flagless_context eq_refl).
    reflexivity.
  - apply (analyze_by_truthiness odd_contexts 2%positive numbered_context eq_refl).
    reflexivity.
Defined.

Lemma parse_returns_built_tree_witness :
  (exists prepared cst,
     break_only_withIndentsAndDedents "break" = Ok prepared
     /\ break_only_match prepared = MatchSucceeded cst
     /\ ast decimal_ToNumber prepared cst = Ok (Program (Arr [BreakStatement])))
  /\ Program (Arr [BreakStatement]) <> Null
  /\ Program (Arr [BreakStatement]) <> Undefined.
Proof.
  apply (parse_returns_built_tree decimal_ToNumber
           break_only_withIndentsAndDedents break_only_match "break").
  reflexivity.
Defined.

End OnMoreSamples.
